(** * nagare.admin.exec_shell: the [shell] and [batch] commands

    A shallow embedding of [src/nagare/admin/exec_shell.py] (the
    [handle_interaction] revision) and the properties of its namespace
    construction, banner rendering, console selection and batch runner.

    Python dictionaries keyed by identifiers are [gmap string _]; the
    effects of the module (imports, console launches, readline calls,
    [sys.argv], [builtins.__dict__]) are threaded through a state and
    exception monad over a [world] that also records a trace of the calls
    made to collaborators. *)

From Stdlib Require Import String Ascii ZArith List Sorted Permutation Lia.
From stdpp Require Import base option list gmap strings sorting pretty.

Local Open Scope string_scope.
Local Open Scope list_scope.
Local Open Scope Z_scope.
Local Open Scope nat_scope.

(** ** Python values and exceptions *)

(** The live objects a namespace can hold. [Services] is the service
    registry handed to [run]; an [Instance] is any other live object, with
    the value of its [name] attribute when it has one. *)
Inductive object :=
| Services
| PyNone
| PyStr (s : string)
| Instance (id : nat) (name : option string).

#[global] Instance object_eq_dec : EqDecision object.
Proof. solve_decision. Defined.

(** Exceptions, with the [args] tuple of a [TypeError] (line 83 indexes
    it). *)
Inductive exn :=
| ImportError
| TypeError (args : list string)
| IndexError
| AttributeError
| StopIteration
| SystemExit
| OSError
| OtherError (cls : string).

#[global] Instance exn_eq_dec : EqDecision exn.
Proof. solve_decision. Defined.

Inductive result (A : Type) :=
| Ok (a : A)
| Raise (e : exn).
Arguments Ok {A} a.
Arguments Raise {A} e.

Definition outcome := result unit.

(** ** Strings *)

Definition nl : string := String "010"%char EmptyString.

(** [needle in hay] on Python strings. *)
Fixpoint str_contains (needle hay : string) : bool :=
  String.prefix needle hay ||
  match hay with
  | EmptyString => false
  | String _ hay' => str_contains needle hay'
  end.

(** The text [phrase] occurs in [s]. *)
Definition occurs_in (phrase s : string) : Prop :=
  exists pre post, s = pre +:+ phrase +:+ post.

(** Python compares [str] by code points; on byte strings that is
    [String.leb]. *)
Definition str_le (a b : string) : Prop := String.leb a b = true.

#[global] Instance str_le_dec : RelDecision str_le.
Proof. intros a b. unfold str_le. apply _. Defined.

(** [sorted(keys)] *)
Definition sorted (l : list string) : list string := merge_sort str_le l.

(** [l[:-1]] and [l[-1]] *)
Definition but_last {A} (l : list A) : list A := take (length l - 1) l.

Definition last_item {A} (l : list A) : result A :=
  match last l with
  | Some x => Ok x
  | None => Raise IndexError
  end.

(** [s.rstrip('/')] *)
Fixpoint rstrip_slash (s : string) : string :=
  match s with
  | EmptyString => EmptyString
  | String c s' =>
      match rstrip_slash s' with
      | EmptyString => if Ascii.eqb c "/" then EmptyString else String c EmptyString
      | rest => String c rest
      end
  end.

(** ** Namespaces *)

(** [a | b]: the entries of [a] and of [b], those of [b] winning. *)
Definition dict_or {V} (a b : gmap string V) : gmap string V := b ∪ a.

(** [d.update(other)] gives the same mapping as [d | other]. *)
Definition dict_update {V} (d other : gmap string V) : gmap string V :=
  dict_or d other.

Definition keys {V} (d : gmap string V) : list string := (map_to_list d).*1.

(** Lines 202 and 236:
    [ns = services_service.handle_interaction() | {'services': services_service}] *)
Definition build_namespace (contributed : gmap string object) : gmap string object :=
  dict_or contributed {["services" := Services]}.

(** ** Banner (lines 204-213) *)

Section Banner.
(** [admin.NAGARE_BANNER], [sys.version] and [sys.platform] *)
Variables (NAGARE_BANNER sys_version sys_platform : string).

Definition quoted (variable : string) : string := "'" +:+ variable +:+ "'".

(** Lines 207-211: the sentence that lists the variables. *)
Definition available (ns : gmap string object) : result string :=
  if decide (size ns = 1) then
    match keys ns with
    | x :: _ => Ok ("Variable " +:+ quoted x +:+ " is available")
    | [] => Raise StopIteration
    end
  else
    let variables := quoted <$> sorted (keys ns) in
    match last_item variables with
    | Ok final =>
        Ok ("Variables " +:+ String.concat ", " (but_last variables)
            +:+ " and " +:+ final +:+ " are available")
    | Raise e => Raise e
    end.

Definition banner_head : string :=
  (NAGARE_BANNER +:+ nl) +:+ ("Python " +:+ sys_version +:+ " on " +:+ sys_platform +:+ nl +:+ nl).

Definition make_banner (ns : gmap string object) : result string :=
  match available ns with
  | Ok sentence => Ok ((banner_head +:+ sentence) +:+ nl)
  | Raise e => Raise e
  end.
End Banner.

(** ** Collaborators, events and the world *)

(** The modules [create_python_shell] tries to import. *)
Inductive module_name := ptpython | bpython | IPython | readline.

#[global] Instance module_name_eq_dec : EqDecision module_name.
Proof. solve_decision. Defined.

(** The console classes of lines 60 and 89. *)
Inductive console_class := PythonShell | PythonShellWithHistory.

#[global] Instance console_class_eq_dec : EqDecision console_class.
Proof. solve_decision. Defined.

(** Calls that leave this module, in the order they are made. A console
    event carries the arguments it was given; [EvLoadFile] carries the
    argument vector and the builtin symbol table the script sees. *)
Inductive event :=
| EvImport (m : module_name)
| EvPrint (text : string)
| EvPtpythonEmbed (ns : gmap string object) (history_filename in_prompt in2_prompt : string)
| EvBpythonEmbed (ns : gmap string object) (banner : string)
| EvIPythonShell (banner prompt : string) (ns : gmap string object)
| EvNewConsole (cls : console_class) (banner prompt : string) (ns : gmap string object)
| EvInteract (banner : string) (exitmsg : option string)
| EvParseAndBind (binding : string)
| EvReadHistoryFile (path : string)
| EvSetHistoryLength (n : Z)
| EvWriteHistoryFile (path : string)
| EvHandleInteraction
| EvLoadFile (path : string) (argv : list string) (builtins : gmap string object).

(** What the collaborators do. Each may answer according to everything
    that happened before, so the console oracle receives the trace.

    An import either succeeds or raises [ImportError], the one exception
    [create_python_shell] catches. A console is known by how it ends and,
    for the built-in one, by the lines it adds to the history: what a
    session does to the interpreter besides (the default [sys.ps1] and
    [sys.ps2] that [interact] sets when they are unset, the [_] that an
    evaluated expression binds in [builtins], the files of an engine or
    of the user's code) is outside the world, and no property below
    speaks of the state of [sys.ps1], [sys.ps2] or [builtins] after a
    console has run. *)
Record collaborators := {
  (** [import m] succeeds; otherwise it raises [ImportError] *)
  importable : module_name -> bool;
  (** how [repl.embed], [bpython.embed] and the IPython shell end *)
  embed_ends : module_name -> outcome;
  (** [InteractiveConsole.interact(banner[, exitmsg])]: the lines the
      line editor adds to its history during the loop, and how it ends *)
  interact_ends : list event -> option string -> list string * outcome;
  (** [services_service.handle_interaction()] *)
  handle_interaction : result (gmap string object);
  (** [reference.load_file(path, None)], run with the argument vector
      and builtin symbol table of the moment *)
  load_file : string -> list string -> gmap string object -> outcome;
  (** the user's home directory, for [os.path.expanduser] *)
  home : string
}.

Record world := {
  sys_argv : list string;
  sys_ps1 : option string;
  sys_ps2 : option string;
  builtins_dict : gmap string object;
  (** the line editor: whether [readline] is loaded, its history list and
      its history length ([-1]: unlimited) *)
  rl_loaded : bool;
  rl_history : list string;
  rl_history_length : Z;
  (** history files by path, one line per entry *)
  files : gmap string (list string);
  trace : list event
}.

(** ** The state and exception monad *)

Definition M (A : Type) : Type := world -> world * result A.

Definition ret {A} (a : A) : M A := fun w => (w, Ok a).

Definition raise {A} (e : exn) : M A := fun w => (w, Raise e).

Definition bind {A B} (m : M A) (k : A -> M B) : M B :=
  fun w =>
    match m w with
    | (w', Ok a) => k a w'
    | (w', Raise e) => (w', Raise e)
    end.

Declare Scope py_scope.
Delimit Scope py_scope with py.
Notation "x <- m ;; k" := (bind m (fun x => k))
  (at level 100, m at next level, right associativity) : py_scope.
Notation "m ;;; k" := (bind m (fun _ => k))
  (at level 100, right associativity) : py_scope.
Local Open Scope py_scope.

(** [try: body / except <caught> : handler]. An exception the clause does
    not name passes through; one raised by the handler is not caught
    again. *)
Definition try_except {A} (body : M A) (caught : exn -> bool) (handler : exn -> M A) : M A :=
  fun w =>
    match body w with
    | (w', Ok a) => (w', Ok a)
    | (w', Raise e) => if caught e then handler e w' else (w', Raise e)
    end.

(** [try: body / except <caught>: handler / else: orelse]. The [else]
    suite runs outside the protection of the [try]. *)
Definition try_except_else {A B} (body : M A) (caught : exn -> bool)
    (handler : exn -> M B) (orelse : A -> M B) : M B :=
  fun w =>
    match body w with
    | (w', Ok a) => orelse a w'
    | (w', Raise e) => if caught e then handler e w' else (w', Raise e)
    end.

Definition lift {A} (r : result A) : M A := fun w => (w, r).

Definition get : M world := fun w => (w, Ok w).

Definition emit (e : event) : M unit :=
  fun w =>
    ({| sys_argv := sys_argv w; sys_ps1 := sys_ps1 w; sys_ps2 := sys_ps2 w;
        builtins_dict := builtins_dict w; rl_loaded := rl_loaded w;
        rl_history := rl_history w; rl_history_length := rl_history_length w;
        files := files w; trace := trace w ++ [e] |}, Ok tt).

Definition is_ImportError (e : exn) : bool :=
  match e with ImportError => true | _ => false end.

Definition is_TypeError (e : exn) : bool :=
  match e with TypeError _ => true | _ => false end.

(** ** Primitive actions *)

Definition set_argv (argv : list string) : M unit :=
  fun w =>
    ({| sys_argv := argv; sys_ps1 := sys_ps1 w; sys_ps2 := sys_ps2 w;
        builtins_dict := builtins_dict w; rl_loaded := rl_loaded w;
        rl_history := rl_history w; rl_history_length := rl_history_length w;
        files := files w; trace := trace w |}, Ok tt).

Definition set_prompts (ps1 ps2 : string) : M unit :=
  fun w =>
    ({| sys_argv := sys_argv w; sys_ps1 := Some ps1; sys_ps2 := Some ps2;
        builtins_dict := builtins_dict w; rl_loaded := rl_loaded w;
        rl_history := rl_history w; rl_history_length := rl_history_length w;
        files := files w; trace := trace w |}, Ok tt).

Definition set_builtins (d : gmap string object) : M unit :=
  fun w =>
    ({| sys_argv := sys_argv w; sys_ps1 := sys_ps1 w; sys_ps2 := sys_ps2 w;
        builtins_dict := d; rl_loaded := rl_loaded w;
        rl_history := rl_history w; rl_history_length := rl_history_length w;
        files := files w; trace := trace w |}, Ok tt).

Definition set_line_editor (loaded : bool) (history : list string) (len : Z) : M unit :=
  fun w =>
    ({| sys_argv := sys_argv w; sys_ps1 := sys_ps1 w; sys_ps2 := sys_ps2 w;
        builtins_dict := builtins_dict w; rl_loaded := loaded;
        rl_history := history; rl_history_length := len;
        files := files w; trace := trace w |}, Ok tt).

Definition set_files (fs : gmap string (list string)) : M unit :=
  fun w =>
    ({| sys_argv := sys_argv w; sys_ps1 := sys_ps1 w; sys_ps2 := sys_ps2 w;
        builtins_dict := builtins_dict w; rl_loaded := rl_loaded w;
        rl_history := rl_history w; rl_history_length := rl_history_length w;
        files := fs; trace := trace w |}, Ok tt).

(** *** The line editor

    The [readline] library is outside the sources; its history is a list
    of lines kept in the world. *)

(** Modelled from the spec: what the history length leaves of a history
    when it is written, "cap retained history length at 200 entries" and
    "writing 250 lines truncates to the most recent 200". A negative
    length is no bound. *)
Definition most_recent (len : Z) (history : list string) : list string :=
  if (len <? 0)%Z then history
  else drop (length history - Z.to_nat len) history.

Definition parse_and_bind (binding : string) : M unit :=
  emit (EvParseAndBind binding).

(** Modelled from the spec: [readline.read_history_file], "load prior
    history from a fixed file path"; the lines of the file are appended
    to the history, and a missing file is an [OSError]. *)
Definition read_history_file (path : string) : M unit :=
  emit (EvReadHistoryFile path);;;
  w <- get;;
  match files w !! path with
  | Some lines => set_line_editor (rl_loaded w) (rl_history w ++ lines) (rl_history_length w)
  | None => raise OSError
  end.

(** Modelled from the spec: [readline.set_history_length]. *)
Definition set_history_length (n : Z) : M unit :=
  emit (EvSetHistoryLength n);;;
  w <- get;;
  set_line_editor (rl_loaded w) (rl_history w) n.

(** Modelled from the spec: [readline.write_history_file], "persist the
    updated history back to the same file"; the file is replaced by the
    most recent lines of the history, as many as the history length
    allows. *)
Definition write_history_file (path : string) : M unit :=
  emit (EvWriteHistoryFile path);;;
  w <- get;;
  set_files (<[path := most_recent (rl_history_length w) (rl_history w)]> (files w)).

(** Modelled from the spec: the lines entered at the prompt reach the
    history only when the line editor is loaded. *)
Definition add_history (lines : list string) : M unit :=
  w <- get;;
  if rl_loaded w
  then set_line_editor true (rl_history w ++ lines) (rl_history_length w)
  else ret tt.

Definition os_path_exists (path : string) : M bool :=
  w <- get;;
  ret (bool_decide (is_Some (files w !! path))).

Section Program.
Variable env : collaborators.

(** [os.path.expanduser] on a path that is '~' or starts with '~/': the
    home directory without its trailing slashes, then the rest of the
    path. Any other path is returned as it is ('~user' would need the
    password database; the module never asks for it). *)
Definition expanduser (path : string) : string :=
  match path with
  | String "~"%char EmptyString =>
      match rstrip_slash (home env) with
      | EmptyString => "/"
      | userhome => userhome
      end
  | String "~"%char (String "/"%char rest) =>
      rstrip_slash (home env) +:+ String "/"%char rest
  | _ => path
  end.

Definition history_path : string := expanduser "~/.nagarehistory".

(** [import m], which succeeds or raises [ImportError]; a loaded
    [readline] is the line editor from then on. *)
Definition import_ (m : module_name) : M unit :=
  emit (EvImport m);;;
  if importable env m then
    match m with
    | readline =>
        w <- get;;
        set_line_editor true (rl_history w) (rl_history_length w)
    | _ => ret tt
    end
  else raise ImportError.

(** ** The plain consoles (lines 60-111) *)

Record console := {
  con_class : console_class;
  con_banner : string;
  con_prompt : string;
  con_ns : gmap string object
}.

(** Lines 63-74 *)
Definition new_console (cls : console_class) (banner prompt : string)
    (ns : gmap string object) : M console :=
  emit (EvNewConsole cls banner prompt ns);;;
  ret {| con_class := cls; con_banner := banner; con_prompt := prompt; con_ns := ns |}.

(** Line 77: the prompt [raw_input] shows. *)
Definition raw_input_prompt (self : console) (prompt : string) : string :=
  "Nagare" +:+ con_prompt self +:+ prompt.

(** [self.interact(self.banner[, exitmsg])]: the call is recorded, the
    lines of the session reach the history and the call ends as the
    oracle says. *)
Definition interact (self : console) (exitmsg : option string) : M unit :=
  emit (EvInteract (con_banner self) exitmsg);;;
  w <- get;;
  let (lines, ends) := interact_ends env (trace w) exitmsg in
  add_history lines;;;
  lift ends.

(** [e.args[0]] *)
Definition first_arg (args : list string) : M string :=
  match args with
  | a :: _ => ret a
  | [] => raise IndexError
  end.

(** Lines 79-86: [PythonShell.__call__] *)
Definition PythonShell_call (self : console) : M unit :=
  try_except (interact self (Some ""))
    is_TypeError
    (fun e =>
       match e with
       | TypeError args =>
           a <- first_arg args;;
           if str_contains "exitmsg" a
           then interact self None
           else raise e
       | _ => raise e
       end).

(** Lines 100-107: what [PythonShellWithHistory.__call__] does before
    it enters the loop. *)
Definition load_history : M unit :=
  parse_and_bind "tab: complete";;;
  found <- os_path_exists history_path;;
  (if found : bool then read_history_file history_path else ret tt);;;
  set_history_length 200.

(** Lines 92-111: [PythonShellWithHistory.__call__] *)
Definition PythonShellWithHistory_call (self : console) : M unit :=
  load_history;;;
  PythonShell_call self;;;
  write_history_file history_path.

(** ** The shell factory (lines 114-172) *)

(** Lines 167-172 *)
Definition builtin_console (banner prompt : string) (ns : gmap string object) : M unit :=
  try_except
    (import_ readline;;;
     self <- new_console PythonShellWithHistory banner prompt ns;;
     PythonShellWithHistory_call self)
    is_ImportError
    (fun _ =>
       self <- new_console PythonShell banner prompt ns;;
       PythonShell_call self).

Definition create_python_shell (plain : bool) (banner prompt : string)
    (ns : gmap string object) : M unit :=
  if negb plain then
    try_except_else (import_ ptpython) is_ImportError
      (fun _ =>
         try_except_else (import_ bpython) is_ImportError
           (fun _ =>
              try_except_else (import_ IPython) is_ImportError
                (fun _ => builtin_console banner prompt ns)
                (fun _ =>
                   emit (EvIPythonShell banner prompt ns);;;
                   lift (embed_ends env IPython)))
           (fun _ =>
              set_prompts ("Nagare" +:+ prompt +:+ ">>> ") ("Nagare" +:+ prompt +:+ "... ");;;
              emit (EvBpythonEmbed ns banner);;;
              lift (embed_ends env bpython)))
      (fun _ =>
         emit (EvPrint banner);;;
         emit (EvPtpythonEmbed ns history_path
                 ("Nagare" +:+ prompt +:+ ">>> ") ("Nagare" +:+ prompt +:+ "... "));;;
         lift (embed_ends env ptpython))
  else builtin_console banner prompt ns.

(** ** The commands (lines 175-239) *)

(** [admin.NAGARE_BANNER], [sys.version] and [sys.platform] *)
Variables (NAGARE_BANNER sys_version sys_platform : string).

(** [app.name] *)
Definition name_of (o : object) : M string :=
  match o with
  | Instance _ (Some n) => ret n
  | _ => raise AttributeError
  end.

(** Line 217: the names the call binds besides those of [**ns]; a
    namespace that has one of them makes the call a [TypeError], whose
    wording depends on the interpreter. *)
Definition bound_names : list string := ["plain"; "banner"; "prompt"; "__name__"].

(** Lines 191-217: [Shell.run] *)
Definition Shell_run (plain : bool) : M unit :=
  emit EvHandleInteraction;;;
  contributed <- lift (handle_interaction env);;
  let ns := build_namespace contributed in
  banner <- lift (make_banner NAGARE_BANNER sys_version sys_platform ns);;
  prompt <- match ns !! "app" with
            | None | Some PyNone => ret ""
            | Some app => name <- name_of app;; ret ("[" +:+ name +:+ "]")
            end;;
  if bool_decide (Exists (λ k, is_Some (ns !! k)) bound_names)
  then raise (TypeError ["create_python_shell() got multiple values for an argument"])
  else create_python_shell plain banner prompt (<["__name__" := PyStr "__console__"]> ns).

(** Lines 232-239: [Batch.run] *)
Definition Batch_run (python_file : string) (batch_arguments : list string) : M unit :=
  set_argv (python_file :: batch_arguments);;;
  emit EvHandleInteraction;;;
  contributed <- lift (handle_interaction env);;
  let ns := build_namespace contributed in
  w <- get;;
  set_builtins (dict_update (builtins_dict w) ns);;;
  w <- get;;
  emit (EvLoadFile python_file (sys_argv w) (builtins_dict w));;;
  lift (load_file env python_file (sys_argv w) (builtins_dict w)).
End Program.

(** ** Observations on traces *)

Inductive console_kind :=
| Optional (engine : module_name)
| Builtin (cls : console_class).

#[global] Instance console_kind_eq_dec : EqDecision console_kind.
Proof. solve_decision. Defined.

(** The console an event starts, if it starts one. *)
Definition console_of (e : event) : option console_kind :=
  match e with
  | EvPtpythonEmbed _ _ _ _ => Some (Optional ptpython)
  | EvBpythonEmbed _ _ => Some (Optional bpython)
  | EvIPythonShell _ _ _ => Some (Optional IPython)
  | EvNewConsole cls _ _ _ => Some (Builtin cls)
  | _ => None
  end.

Definition consoles_run (t : list event) : list console_kind := omap console_of t.

Definition import_of (e : event) : option module_name :=
  match e with EvImport m => Some m | _ => None end.

Definition imports_tried (t : list event) : list module_name := omap import_of t.

Definition is_builtin (c : console_kind) : bool :=
  match c with Builtin _ => true | Optional _ => false end.

Definition load_of (e : event) : option (string * list string * gmap string object) :=
  match e with EvLoadFile p argv b => Some (p, argv, b) | _ => None end.

(** The executions of a script, each with what it could see. *)
Definition loads (t : list event) : list (string * list string * gmap string object) :=
  omap load_of t.

(** The selection as the specification words it: an ordered list of
    engines, the first importable one being used. *)
Definition engines : list module_name := [ptpython; bpython; IPython].

Definition first_importable (env : collaborators) : option module_name :=
  List.find (importable env) engines.

(** The engines looked at before the selection stops. *)
Fixpoint probed (env : collaborators) (l : list module_name) : list module_name :=
  match l with
  | [] => []
  | m :: l' => m :: (if importable env m then [] else probed env l')
  end.

(** [new] is what a run from [w] to [w'] added to the trace. *)
Definition extends (w w' : world) (new : list event) : Prop :=
  trace w' = trace w ++ new.

(** Events that neither import a module nor start a console. *)
Definition quiet (new : list event) : Prop :=
  imports_tried new = [] ∧ consoles_run new = [].

Arguments history_path : simpl never.

Ltac unfold_actions :=
  unfold try_except, try_except_else, interact, first_arg,
    parse_and_bind, read_history_file, set_history_length, write_history_file,
    os_path_exists, add_history, new_console, import_,
    bind, emit, get, lift, ret, raise, set_line_editor, set_files, set_argv,
    set_builtins, set_prompts.

Ltac run := unfold_actions; cbn.

(** A new process on the same file system. *)
Definition restart (w : world) : world :=
  {| sys_argv := sys_argv w; sys_ps1 := None; sys_ps2 := None;
     builtins_dict := builtins_dict w; rl_loaded := false;
     rl_history := []; rl_history_length := (-1)%Z;
     files := files w; trace := [] |}.

(** ** Sample collaborators and worlds *)

Definition fresh_world : world :=
  {| sys_argv := ["nagare-admin"; "exec"]; sys_ps1 := None; sys_ps2 := None;
     builtins_dict := {["len" := Instance 0 None]}; rl_loaded := false;
     rl_history := []; rl_history_length := (-1)%Z; files := ∅; trace := [] |}.

Definition sample_contribution : gmap string object :=
  {["app" := Instance 1 (Some "demo"); "session" := Instance 2 None]}.

(** A console of an interpreter that does not know [exitmsg]. *)
Definition old_interact (t : list event) (exitmsg : option string)
    : list string * outcome :=
  match exitmsg with
  | Some _ => ([], Raise (TypeError ["interact() got an unexpected keyword argument 'exitmsg'"]))
  | None => (["1 + 1"; "apps"], Ok tt)
  end.

(** Only IPython and readline are installed; the script fails. *)
Definition sample_env : collaborators :=
  {| importable := λ m, match m with IPython | readline => true | _ => false end;
     embed_ends := λ _, Ok tt;
     interact_ends := old_interact;
     handle_interaction := Ok sample_contribution;
     load_file := λ _ _ _, Raise (OtherError "SyntaxError");
     home := "/home/user" |}.

(** A console that takes [typed] as its input and ends normally. *)
Definition typing_env (typed : list string) : collaborators :=
  {| importable := λ m, match m with readline => true | _ => false end;
     embed_ends := λ _, Ok tt;
     interact_ends := λ _ _, (typed, Ok tt);
     handle_interaction := Ok ∅;
     load_file := λ _ _ _, Ok tt;
     home := "/home/user" |}.

(** A console whose loop ends with the exception [e]. *)
Definition failing_env (e : exn) : collaborators :=
  {| importable := λ m, match m with readline => true | _ => false end;
     embed_ends := λ _, Ok tt;
     interact_ends := λ _ _, ([], Raise e);
     handle_interaction := Ok ∅;
     load_file := λ _ _ _, Ok tt;
     home := "/home/user" |}.

Definition sample_console : console :=
  {| con_class := PythonShell; con_banner := "hello"; con_prompt := "[demo]";
     con_ns := build_namespace sample_contribution |}.

(** The optional engines all missing but bpython, whose console ends
    with [ImportError]; the registry raises. *)
Definition crashing_env : collaborators :=
  {| importable := λ m, match m with bpython | readline => true | _ => false end;
     embed_ends := λ _, Raise ImportError;
     interact_ends := λ _ _, ([], Ok tt);
     handle_interaction := Raise (OtherError "RuntimeError");
     load_file := λ _ _ _, Ok tt;
     home := "/home/user" |}.

(** Nothing optional and no readline; the registry answers [r]. *)
Definition contributing_env (r : result (gmap string object)) : collaborators :=
  {| importable := λ _, false;
     embed_ends := λ _, Ok tt;
     interact_ends := old_interact;
     handle_interaction := r;
     load_file := λ _ _ _, Ok tt;
     home := "/home/user" |}.

(** What the selected engine is started with (lines 143-145, 153-156
    and 164). *)
Definition launch (env : collaborators) (engine : module_name)
    (banner prompt : string) (ns : gmap string object) : list event :=
  match engine with
  | ptpython =>
      [EvPrint banner;
       EvPtpythonEmbed ns (history_path env)
         ("Nagare" +:+ prompt +:+ ">>> ") ("Nagare" +:+ prompt +:+ "... ")]
  | bpython => [EvBpythonEmbed ns banner]
  | IPython => [EvIPythonShell banner prompt ns]
  | readline => []
  end.

(** Only readline is installed; the loop of the history console ends with
    [ImportError], the loop of a plain console takes a line and
    returns. *)
Definition restarting_env : collaborators :=
  {| importable := λ m, match m with readline => true | _ => false end;
     embed_ends := λ _, Ok tt;
     interact_ends := λ t _,
       if bool_decide (Builtin PythonShell ∈ consoles_run t)
       then (["1 + 1"], Ok tt)
       else ([], Raise ImportError);
     handle_interaction := Ok ∅;
     load_file := λ _ _ _, Ok tt;
     home := "/home/user/" |}.

(** * Properties *)

(** ** Strings and lists *)

Lemma str_app_assoc (a b c : string) : (a +:+ b) +:+ c = a +:+ b +:+ c.
Proof.
  induction a as [|ch a IH]; [reflexivity|].
  change (String ch ((a +:+ b) +:+ c) = String ch (a +:+ b +:+ c)).
  by rewrite IH.
Qed.

Lemma occurs_in_middle (pre phrase post : string) :
  occurs_in phrase ((pre +:+ phrase) +:+ post).
Proof. exists pre, post. apply str_app_assoc. Qed.

#[global] Instance str_le_total : Total str_le.
Proof. intros a b. apply String.leb_total. Qed.

Lemma sorted_Sorted (l : list string) : Sorted str_le (sorted l).
Proof. apply Sorted_merge_sort, _. Qed.

Lemma sorted_Permutation (l : list string) : sorted l ≡ₚ l.
Proof. apply merge_sort_Permutation. Qed.

Lemma length_sorted (l : list string) : length (sorted l) = length l.
Proof. by rewrite sorted_Permutation. Qed.

Lemma but_last_snoc {A} (l : list A) (x : A) : but_last (l ++ [x]) = l.
Proof.
  unfold but_last. rewrite length_app. simpl.
  apply take_app_length'. lia.
Qed.

Lemma last_item_snoc {A} (l : list A) (x : A) : last_item (l ++ [x]) = Ok x.
Proof. unfold last_item. by rewrite last_snoc. Qed.

(** ** Namespaces *)

Lemma length_keys {V} (d : gmap string V) : length (keys d) = size d.
Proof. unfold keys. by rewrite length_fmap, length_map_to_list. Qed.

Lemma elem_of_keys {V} (d : gmap string V) (k : string) :
  k ∈ keys d ↔ is_Some (d !! k).
Proof.
  unfold keys. rewrite list_elem_of_fmap. split.
  - intros [[k' v] [-> Hin]]. apply elem_of_map_to_list in Hin. by exists v.
  - intros [v Hv]. exists (k, v). split; [done|]. by apply elem_of_map_to_list.
Qed.

Lemma lookup_dict_or {V} (a b : gmap string V) (k : string) :
  dict_or a b !! k = match b !! k with Some v => Some v | None => a !! k end.
Proof.
  unfold dict_or. rewrite lookup_union.
  destruct (b !! k), (a !! k); reflexivity.
Qed.

Lemma lookup_build_namespace (contributed : gmap string object) (k : string) :
  build_namespace contributed !! k
  = if decide (k = "services") then Some Services else contributed !! k.
Proof.
  unfold build_namespace. rewrite lookup_dict_or.
  case_decide as Hk.
  - subst k. by rewrite lookup_singleton_eq.
  - by rewrite lookup_singleton_ne.
Qed.

Lemma size_build_namespace (contributed : gmap string object) :
  1 ≤ size (build_namespace contributed).
Proof.
  assert (size (build_namespace contributed) ≠ 0); [|lia].
  apply (map_size_ne_0_lookup_2 _ "services").
  rewrite lookup_build_namespace. by eexists.
Qed.

(** ** The banner *)

Section BannerFacts.
Variables (B V P : string).

Lemma keys_single (ns : gmap string object) (x : string) :
  size ns = 1 → is_Some (ns !! x) → keys ns = [x].
Proof.
  intros Hsize Hx. apply elem_of_keys in Hx.
  rewrite <- length_keys in Hsize.
  destruct (keys ns) as [|k [|k' l]]; simplify_eq/=.
  apply list_elem_of_singleton in Hx. by subst.
Qed.

Lemma available_single (ns : gmap string object) (x : string) :
  size ns = 1 → is_Some (ns !! x) →
  available ns = Ok ("Variable " +:+ quoted x +:+ " is available").
Proof.
  intros Hsize Hx. unfold available.
  rewrite decide_True by done. by rewrite (keys_single ns x).
Qed.

Lemma variables_snoc (ns : gmap string object) :
  size ns ≠ 0 → ∃ names final, sorted (keys ns) = names ++ [final].
Proof.
  intros Hsize.
  destruct (last (sorted (keys ns))) as [final|] eqn:Hlast.
  { apply last_Some in Hlast as [names Hnames]. by exists names, final. }
  apply last_None in Hlast.
  apply (f_equal length) in Hlast.
  rewrite length_sorted, length_keys in Hlast. done.
Qed.

Lemma available_several (ns : gmap string object) (names : list string) (final : string) :
  size ns ≠ 1 → sorted (keys ns) = names ++ [final] →
  available ns = Ok ("Variables " +:+ String.concat ", " (quoted <$> names)
                     +:+ " and " +:+ quoted final +:+ " are available").
Proof.
  intros Hsize Hsorted. unfold available.
  rewrite decide_False by done. cbv zeta.
  rewrite Hsorted, fmap_app. cbn [fmap list_fmap].
  by rewrite last_item_snoc, but_last_snoc.
Qed.
End BannerFacts.

(** C10. A namespace built by [run] has at least one entry; when the
    count is not one, the list of quoted names has at least two
    elements and taking its last element succeeds, so rendering the
    banner never raises. *)
Theorem plural_branch_has_two_names (B V P : string) (contributed : gmap string object) :
  let ns := build_namespace contributed in
  let variables := quoted <$> sorted (keys ns) in
  1 ≤ size ns ∧
  (size ns = 1 ∨ (2 ≤ length variables ∧ ∃ final, last_item variables = Ok final)) ∧
  ∃ banner, make_banner B V P ns = Ok banner.
Proof.
  intros ns variables.
  pose proof (size_build_namespace contributed) as Hsize. fold ns in Hsize.
  split; [done|].
  destruct (decide (size ns = 1)) as [Hone|Hmany].
  - split; [by left|].
    unfold make_banner.
    rewrite (available_single ns "services" Hone); [by eexists|].
    unfold ns. rewrite lookup_build_namespace. by eexists.
  - destruct (variables_snoc ns) as (names & final & Hsorted); [lia|].
    split.
    + right. split.
      * unfold variables. rewrite length_fmap, length_sorted, length_keys. lia.
      * exists (quoted final). unfold variables.
        rewrite Hsorted, fmap_app. apply last_item_snoc.
    + unfold make_banner.
      rewrite (available_several ns names final Hmany Hsorted). by eexists.
Qed.

(** C2. The banner of a namespace built by [Shell.run]: with exactly one
    entry, named [x], it contains "Variable 'x' is available"; with two
    or more it contains "Variables ", the quoted names in sorted order
    joined by ", " up to the last one, " and ", the last quoted name and
    " are available". *)
Theorem banner_lists_variables (B V P : string) (contributed : gmap string object) :
  let ns := build_namespace contributed in
  ∃ banner, make_banner B V P ns = Ok banner ∧
    (∀ x, size ns = 1 → is_Some (ns !! x) →
       occurs_in ("Variable " +:+ quoted x +:+ " is available") banner) ∧
    (2 ≤ size ns →
       ∃ names final,
         Sorted str_le (names ++ [final]) ∧
         names ++ [final] ≡ₚ keys ns ∧
         occurs_in ("Variables " +:+ String.concat ", " (quoted <$> names)
                    +:+ " and " +:+ quoted final +:+ " are available") banner).
Proof.
  intros ns.
  pose proof (size_build_namespace contributed) as Hsize. fold ns in Hsize.
  destruct (decide (size ns = 1)) as [Hone|Hmany].
  - assert (is_Some (ns !! "services")) as Hs.
    { unfold ns. rewrite lookup_build_namespace. by eexists. }
    eexists. split.
    { unfold make_banner. by rewrite (available_single ns "services" Hone Hs). }
    split; [|lia].
    intros x _ Hx.
    assert (x = "services") as ->.
    { pose proof (keys_single ns x Hone Hx) as H1.
      pose proof (keys_single ns "services" Hone Hs) as H2. congruence. }
    apply occurs_in_middle.
  - destruct (variables_snoc ns) as (names & final & Hsorted); [lia|].
    eexists. split.
    { unfold make_banner. by rewrite (available_several ns names final Hmany Hsorted). }
    split; [done|].
    intros _. exists names, final. split; [|split].
    + rewrite <- Hsorted. apply sorted_Sorted.
    + rewrite <- Hsorted. apply sorted_Permutation.
    + apply occurs_in_middle.
Qed.

Lemma banner_lists_variables_witness :
  occurs_in "Variable 'services' is available"
    ("Nagare" +:+ nl +:+ "Python 3.12 on linux" +:+ nl +:+ nl +:+
     "Variable 'services' is available" +:+ nl) ∧
  ∃ names final,
    names ++ [final] ≡ₚ keys (build_namespace sample_contribution) ∧
    occurs_in ("Variables " +:+ String.concat ", " (quoted <$> names)
               +:+ " and " +:+ quoted final +:+ " are available")
      ("Nagare" +:+ nl +:+ "Python 3.12 on linux" +:+ nl +:+ nl +:+
       "Variables 'app', 'services' and 'session' are available" +:+ nl).
Proof.
  split.
  - destruct (banner_lists_variables "Nagare" "3.12" "linux" ∅)
      as (banner & Hb & Hone & _).
    vm_compute in Hb. injection Hb as <-.
    apply (Hone "services"); [vm_compute; reflexivity | by eexists].
  - destruct (banner_lists_variables "Nagare" "3.12" "linux" sample_contribution)
      as (banner & Hb & _ & Hmany).
    vm_compute in Hb. injection Hb as <-.
    destruct Hmany as (names & final & _ & Hperm & Hocc); [vm_compute; lia|].
    by exists names, final.
Defined.

Example banner_three :
  make_banner "Nagare" "3.12" "linux"
    (build_namespace {["b" := Instance 1 None; "a" := Instance 2 None]})
  = Ok ("Nagare" +:+ nl +:+ "Python 3.12 on linux" +:+ nl +:+ nl +:+
        "Variables 'a', 'b' and 'services' are available" +:+ nl).
Proof. vm_compute. reflexivity. Qed.

Example banner_two :
  available (build_namespace {["app" := Instance 1 None]})
  = Ok "Variables 'app' and 'services' are available".
Proof. vm_compute. reflexivity. Qed.

Example banner_empty_namespace :
  make_banner "Nagare" "3.12" "linux" ∅ = Raise IndexError.
Proof. vm_compute. reflexivity. Qed.

(** ** The namespace *)

(** C4, as stated, at a contribution that has a 'services' entry of its
    own: the contributed entry is not in the namespace. *)
Lemma contributed_services_is_replaced :
  let contributed : gmap string object := {["services" := Instance 7 None]} in
  contributed !! "services" = Some (Instance 7 None) ∧
  build_namespace contributed !! "services" ≠ Some (Instance 7 None).
Proof. split; vm_compute; [reflexivity | discriminate]. Qed.

(** C4, amended. The namespace of [Shell.run] and [Batch.run] binds
    'services' to the service registry, whatever was contributed, and
    contains every contributed entry whose name is not 'services'. *)
Theorem namespace_entries (contributed : gmap string object) :
  build_namespace contributed !! "services" = Some Services ∧
  ∀ name o, name ≠ "services" → contributed !! name = Some o →
    build_namespace contributed !! name = Some o.
Proof.
  split.
  - by rewrite lookup_build_namespace.
  - intros name o Hname Hc. rewrite lookup_build_namespace.
    by rewrite decide_False.
Qed.

Lemma namespace_entries_witness :
  build_namespace sample_contribution !! "services" = Some Services ∧
  build_namespace sample_contribution !! "app" = Some (Instance 1 (Some "demo")).
Proof.
  destruct (namespace_entries sample_contribution) as [Hs Hc].
  split; [exact Hs|].
  apply Hc; [discriminate | vm_compute; reflexivity].
Defined.

(** ** Traces *)

Lemma extends_trans w w1 w2 n1 n2 :
  extends w w1 n1 → extends w1 w2 n2 → extends w w2 (n1 ++ n2).
Proof. unfold extends. intros H1 H2. by rewrite H2, H1, app_assoc. Qed.

Lemma quiet_app n1 n2 : quiet n1 → quiet n2 → quiet (n1 ++ n2).
Proof.
  unfold quiet, imports_tried, consoles_run. intros [H1 H2] [H3 H4].
  by rewrite !omap_app, H1, H2, H3, H4.
Qed.

(** ** The consoles *)

Section Consoles.
Variable env : collaborators.

Lemma interact_run self x w :
  let t := trace w ++ [EvInteract (con_banner self) x] in
  interact env self x w =
  ({| sys_argv := sys_argv w; sys_ps1 := sys_ps1 w; sys_ps2 := sys_ps2 w;
      builtins_dict := builtins_dict w; rl_loaded := rl_loaded w;
      rl_history := (if rl_loaded w then rl_history w ++ (interact_ends env t x).1 else rl_history w);
      rl_history_length := rl_history_length w; files := files w; trace := t |},
   (interact_ends env t x).2).
Proof.
  run. destruct (interact_ends env _ x) as [lines r]. cbn.
  destruct (rl_loaded w) eqn:E; cbn; rewrite ?E; reflexivity.
Qed.

Lemma PythonShell_call_eq self w :
  PythonShell_call env self w =
  match interact env self (Some "") w with
  | (w1, Ok a) => (w1, Ok a)
  | (w1, Raise (TypeError [])) => (w1, Raise IndexError)
  | (w1, Raise (TypeError (a :: rest))) =>
      if str_contains "exitmsg" a then interact env self None w1
      else (w1, Raise (TypeError (a :: rest)))
  | (w1, Raise e) => (w1, Raise e)
  end.
Proof.
  unfold PythonShell_call, try_except.
  destruct (interact env self (Some "") w) as [w1 [a|e]]; [done|].
  destruct e as [|[|a rest]| | | | | |]; try done.
  unfold bind, first_arg, ret. by destruct (str_contains "exitmsg" a).
Qed.

Lemma interact_quiet self x w :
  ∃ new, extends w (interact env self x w).1 new ∧ quiet new ∧
    files (interact env self x w).1 = files w ∧
    rl_history_length (interact env self x w).1 = rl_history_length w.
Proof. rewrite interact_run. by eexists. Qed.

Lemma PythonShell_call_quiet self w :
  ∃ new, extends w (PythonShell_call env self w).1 new ∧ quiet new.
Proof.
  rewrite PythonShell_call_eq.
  destruct (interact_quiet self (Some "") w) as (n1 & H1 & Q1 & _).
  destruct (interact env self (Some "") w) as [w1 [a|e]]; [by exists n1|].
  destruct e as [|[|a rest]| | | | | |]; try by exists n1.
  destruct (str_contains "exitmsg" a); [|by exists n1].
  destruct (interact_quiet self None w1) as (n2 & H2 & Q2 & _).
  exists (n1 ++ n2). split; [by eapply extends_trans | by apply quiet_app].
Qed.

Lemma load_history_run w :
  ∃ new, extends w (load_history env w).1 new ∧ quiet new ∧
    (load_history env w).2 = Ok tt ∧
    files (load_history env w).1 = files w ∧
    rl_loaded (load_history env w).1 = rl_loaded w ∧
    rl_history (load_history env w).1 = rl_history w ++ default [] (files w !! history_path env) ∧
    rl_history_length (load_history env w).1 = 200%Z.
Proof.
  unfold load_history. run.
  destruct (files w !! history_path env) as [lines|] eqn:Hf; cbn; rewrite ?Hf; cbn.
  - eexists. unfold extends. cbn. rewrite <- !app_assoc. done.
  - eexists. unfold extends. cbn. rewrite <- !app_assoc.
    split; [reflexivity|]. repeat split. by rewrite app_nil_r.
Qed.

Lemma write_history_file_run path w :
  write_history_file path w =
  ({| sys_argv := sys_argv w; sys_ps1 := sys_ps1 w; sys_ps2 := sys_ps2 w;
      builtins_dict := builtins_dict w; rl_loaded := rl_loaded w;
      rl_history := rl_history w; rl_history_length := rl_history_length w;
      files := <[path := most_recent (rl_history_length w) (rl_history w)]> (files w);
      trace := trace w ++ [EvWriteHistoryFile path] |}, Ok tt).
Proof. reflexivity. Qed.

Lemma PythonShellWithHistory_call_eq self w :
  PythonShellWithHistory_call env self w =
  match PythonShell_call env self (load_history env w).1 with
  | (w1, Ok _) => write_history_file (history_path env) w1
  | (w1, Raise e) => (w1, Raise e)
  end.
Proof.
  destruct (load_history_run w) as (_ & _ & _ & Hok & _).
  unfold PythonShellWithHistory_call, bind at 1.
  destruct (load_history env w) as [w0 r]. cbn in Hok. subst r. cbn.
  unfold bind. by destruct (PythonShell_call env self w0) as [w1 [[]|e]].
Qed.

Lemma PythonShellWithHistory_call_quiet self w :
  ∃ new, extends w (PythonShellWithHistory_call env self w).1 new ∧ quiet new.
Proof.
  rewrite PythonShellWithHistory_call_eq.
  destruct (load_history_run w) as (n0 & H0 & Q0 & _).
  destruct (PythonShell_call_quiet self (load_history env w).1) as (n1 & H1 & Q1).
  destruct (PythonShell_call env self (load_history env w).1) as [w1 [a|e]].
  - rewrite write_history_file_run. cbn in *.
    exists ((n0 ++ n1) ++ [EvWriteHistoryFile (history_path env)]). split.
    + eapply extends_trans; [by eapply extends_trans|]. by unfold extends.
    + by repeat apply quiet_app.
  - exists (n0 ++ n1). split; [by eapply extends_trans | by apply quiet_app].
Qed.

Lemma new_console_run cls banner prompt ns w :
  new_console cls banner prompt ns w =
  ({| sys_argv := sys_argv w; sys_ps1 := sys_ps1 w; sys_ps2 := sys_ps2 w;
      builtins_dict := builtins_dict w; rl_loaded := rl_loaded w;
      rl_history := rl_history w; rl_history_length := rl_history_length w;
      files := files w; trace := trace w ++ [EvNewConsole cls banner prompt ns] |},
   Ok {| con_class := cls; con_banner := banner; con_prompt := prompt; con_ns := ns |}).
Proof. reflexivity. Qed.

Lemma builtin_console_trace banner prompt ns w :
  ∃ new rest, extends w (builtin_console env banner prompt ns w).1 new ∧
    imports_tried new = [readline] ∧
    consoles_run new =
      Builtin (if importable env readline then PythonShellWithHistory else PythonShell) :: rest ∧
    (rest = [] ∨ rest = [Builtin PythonShell]) ∧
    head new = Some (EvImport readline).
Proof.
  unfold builtin_console. run.
  destruct (importable env readline) eqn:Hrl; cbn.
  - match goal with
    | |- context [PythonShellWithHistory_call env ?s ?w0] =>
        destruct (PythonShellWithHistory_call_quiet s w0) as (n1 & H1 & Qi & Qc);
        destruct (PythonShellWithHistory_call env s w0) as [w1 [a|e]]
    end; unfold extends in H1; cbn in H1.
    + eexists _, []. unfold extends. cbn. rewrite H1, <- !app_assoc.
      split; [reflexivity|]. unfold imports_tried, consoles_run in *. cbn.
      rewrite Qi, Qc. auto.
    + destruct (is_ImportError e).
      * match goal with
        | |- context [PythonShell_call env ?s ?w0] =>
            destruct (PythonShell_call_quiet s w0) as (n2 & H2 & Q2i & Q2c)
        end. unfold extends in H2. cbn in H2.
        eexists _, [Builtin PythonShell]. unfold extends.
        rewrite H2, H1, <- !app_assoc.
        split; [reflexivity|]. unfold imports_tried, consoles_run in *. cbn.
        rewrite !omap_app, Qi, Qc. cbn. rewrite Q2i, Q2c. auto.
      * eexists _, []. unfold extends. cbn. rewrite H1, <- !app_assoc.
        split; [reflexivity|]. unfold imports_tried, consoles_run in *. cbn.
        rewrite Qi, Qc. auto.
  - match goal with
    | |- context [PythonShell_call env ?s ?w0] =>
        destruct (PythonShell_call_quiet s w0) as (n2 & H2 & Q2i & Q2c)
    end. unfold extends in H2. cbn in H2.
    eexists _, []. unfold extends. rewrite H2, <- !app_assoc.
    split; [reflexivity|]. unfold imports_tried, consoles_run in *. cbn.
    rewrite Q2i, Q2c. auto.
Qed.

(** The imports tried and the consoles created: with [plain] false
    ptpython, bpython and IPython are probed in that order up to the
    first that imports, and that engine's console is the only one; with
    [plain] true, or when none of the three imports, readline is probed
    and only built-in consoles are created, one or two of them. *)
Theorem selects_first_importable plain banner prompt ns w :
  ∃ new,
    trace (create_python_shell env plain banner prompt ns w).1 = trace w ++ new ∧
    match (if plain then None else first_importable env) with
    | Some engine =>
        imports_tried new = probed env engines ∧
        consoles_run new = [Optional engine]
    | None =>
        imports_tried new = (if plain then [] else engines) ++ [readline] ∧
        ∃ cls rest, consoles_run new = Builtin cls :: rest ∧
                    Forall (λ c, is_builtin c = true) rest
    end.
Proof.
  assert (∀ w0 pre, trace w0 = trace w ++ pre → consoles_run pre = [] →
     ∃ new, trace (builtin_console env banner prompt ns w0).1 = trace w ++ new ∧
       imports_tried new = imports_tried pre ++ [readline] ∧
       ∃ cls rest, consoles_run new = Builtin cls :: rest ∧
                   Forall (λ c, is_builtin c = true) rest) as Hfallback.
  { intros w0 pre Hpre Hc.
    destruct (builtin_console_trace banner prompt ns w0) as (n & rest & Hn & Hi & Hk & Hrest & _).
    exists (pre ++ n). unfold extends in Hn. rewrite Hn, Hpre, app_assoc.
    split; [done|]. unfold imports_tried, consoles_run in *.
    rewrite !omap_app, Hi, Hc, Hk. split; [done|].
    eexists _, rest. split; [done|]. by destruct Hrest as [-> | ->]; repeat constructor. }
  destruct plain; cbn [negb].
  { destruct (Hfallback w []) as (new & ? & ? & ?); [by rewrite app_nil_r | done |].
    by exists new. }
  unfold create_python_shell, first_importable, engines. cbn [negb List.find probed].
  run.
  destruct (importable env ptpython) eqn:Hpt; cbn.
  { eexists. rewrite <- !app_assoc. split; [reflexivity|]. done. }
  destruct (importable env bpython) eqn:Hbp; cbn.
  { eexists. rewrite <- !app_assoc. split; [reflexivity|]. done. }
  destruct (importable env IPython) eqn:Hip; cbn.
  { eexists. rewrite <- !app_assoc. split; [reflexivity|]. done. }
  apply (Hfallback _ [EvImport ptpython; EvImport bpython; EvImport IPython]); [|done].
  cbn. by rewrite <- !app_assoc.
Qed.

(** C3. With [plain] true the factory is the built-in console: the only
    import it tries is readline, which comes first, and every console it
    starts is a built-in one, whatever the optional engines would have
    answered. *)
Theorem plain_skips_optional_engines banner prompt ns w :
  create_python_shell env true banner prompt ns w = builtin_console env banner prompt ns w ∧
  ∃ new,
    trace (create_python_shell env true banner prompt ns w).1
      = trace w ++ EvImport readline :: new ∧
    imports_tried (EvImport readline :: new) = [readline] ∧
    consoles_run new ≠ [] ∧
    Forall (λ c, is_builtin c = true) (consoles_run new).
Proof.
  split; [reflexivity|]. change (create_python_shell env true banner prompt ns w)
    with (builtin_console env banner prompt ns w).
  destruct (builtin_console_trace banner prompt ns w)
    as (n & rest & Hn & Hi & Hk & Hrest & Hhead).
  destruct n as [|ev n]; simplify_eq/=.
  exists n. split; [exact Hn|]. split; [by rewrite Hi|].
  rewrite Hk. split; [done|].
  constructor; [done|]. by destruct Hrest as [-> | ->]; repeat constructor.
Qed.

End Consoles.

(** ** The exit-message retry and the history file *)

Section Retry.
Variable env : collaborators.

Lemma PythonShell_call_frame self w :
  files (PythonShell_call env self w).1 = files w ∧
  rl_history_length (PythonShell_call env self w).1 = rl_history_length w ∧
  rl_loaded (PythonShell_call env self w).1 = rl_loaded w.
Proof.
  rewrite PythonShell_call_eq, interact_run.
  destruct (interact_ends env _ (Some "")) as [lines [a|e]]; [done|].
  cbv beta iota zeta. cbn [fst snd].
  destruct e as [|[|a rest]| | | | | |]; try done.
  destruct (str_contains "exitmsg" a); [|done].
  by rewrite interact_run.
Qed.

(** X1. The first part of C5: a [TypeError] from [interact] whose message
    mentions 'exitmsg' is not raised; the loop is entered once more,
    without the keyword, and the call ends as that second loop ends. *)
Theorem exitmsg_retry self w lines a rest :
  interact_ends env (trace w ++ [EvInteract (con_banner self) (Some "")]) (Some "")
    = (lines, Raise (TypeError (a :: rest))) →
  str_contains "exitmsg" a = true →
  let t := trace w ++ [EvInteract (con_banner self) (Some "");
                      EvInteract (con_banner self) None] in
  trace (PythonShell_call env self w).1 = t ∧
  (PythonShell_call env self w).2 = (interact_ends env t None).2.
Proof.
  intros H1 Ha t. rewrite PythonShell_call_eq, interact_run, H1.
  cbv beta iota zeta. cbn [fst snd]. rewrite Ha, interact_run. cbn. by rewrite <- app_assoc.
Qed.

(** X2. The second part of C5, for the exceptions it holds for: anything
    that is not a [TypeError], and a [TypeError] whose first argument does
    not mention 'exitmsg', leaves [PythonShell.__call__] as it left
    [interact], after a single loop. *)
Theorem other_exception_reraised self w lines e :
  interact_ends env (trace w ++ [EvInteract (con_banner self) (Some "")]) (Some "")
    = (lines, Raise e) →
  (∀ args, e = TypeError args →
     ∃ a rest, args = a :: rest ∧ str_contains "exitmsg" a = false) →
  (PythonShell_call env self w).2 = Raise e ∧
  trace (PythonShell_call env self w).1
    = trace w ++ [EvInteract (con_banner self) (Some "")].
Proof.
  intros H1 He. rewrite PythonShell_call_eq, interact_run, H1. cbn.
  destruct e as [|args| | | | | |]; try done.
  destruct (He args eq_refl) as (a & rest & -> & Ha). by rewrite Ha.
Qed.

(** X3. The third part of C5: [PythonShellWithHistory.__call__] ends as the
    loop of [PythonShell.__call__] ends. When that returns, by the retry
    or not, the history file is written last, bounded by the history
    length; when it raises, the exception passes and nothing is
    written. *)
Theorem history_written_after_loop self w :
  let w0 := (load_history env w).1 in
  match PythonShell_call env self w0 with
  | (w1, Ok _) =>
      (PythonShellWithHistory_call env self w).2 = Ok tt ∧
      trace (PythonShellWithHistory_call env self w).1
        = trace w1 ++ [EvWriteHistoryFile (history_path env)] ∧
      files (PythonShellWithHistory_call env self w).1 !! history_path env
        = Some (most_recent 200 (rl_history w1))
  | (w1, Raise e) =>
      PythonShellWithHistory_call env self w = (w1, Raise e)
  end.
Proof.
  intros w0. rewrite PythonShellWithHistory_call_eq. fold w0.
  destruct (PythonShell_call_frame self w0) as (_ & Hlen & _).
  destruct (load_history_run env w) as (_ & _ & _ & _ & _ & _ & _ & H200).
  fold w0 in H200.
  destruct (PythonShell_call env self w0) as [w1 [a|e]]; [|done].
  rewrite write_history_file_run. cbn in *.
  by rewrite lookup_insert_eq, Hlen, H200.
Qed.

End Retry.

Lemma exitmsg_retry_witness :
  let w' := (PythonShell_call sample_env sample_console fresh_world).1 in
  trace w' = [EvInteract "hello" (Some ""); EvInteract "hello" None] ∧
  (PythonShell_call sample_env sample_console fresh_world).2 = Ok tt.
Proof.
  apply (exitmsg_retry sample_env sample_console fresh_world []
    "interact() got an unexpected keyword argument 'exitmsg'" []);
    reflexivity.
Defined.

Lemma other_exception_reraised_witness :
  (PythonShell_call (failing_env SystemExit) sample_console fresh_world).2
    = Raise SystemExit ∧
  trace (PythonShell_call (failing_env SystemExit) sample_console fresh_world).1
    = [EvInteract "hello" (Some "")].
Proof.
  apply (other_exception_reraised (failing_env SystemExit) sample_console fresh_world []);
    [reflexivity | discriminate].
Defined.

(** C5 at a [TypeError] without arguments: line 83 indexes the empty
    [args] and [IndexError] leaves the call in place of the
    [TypeError]. *)
Theorem argless_TypeError_not_reraised :
  (interact (failing_env (TypeError [])) sample_console (Some "") fresh_world).2
    = Raise (TypeError []) ∧
  (PythonShell_call (failing_env (TypeError [])) sample_console fresh_world).2
    = Raise IndexError.
Proof. split; reflexivity. Qed.

(** ** The batch runner *)

Section Batch.
Variable env : collaborators.

(** [Batch.run] in one step: the argument vector is set first; when the
    registry answers, the namespace goes into the builtin symbol table and
    the script is loaded once, the run ending as the load ends. *)
Lemma Batch_run_eq python_file batch_arguments w :
  Batch_run env python_file batch_arguments w =
  let argv := python_file :: batch_arguments in
  match handle_interaction env with
  | Ok contributed =>
      let b := dict_update (builtins_dict w) (build_namespace contributed) in
      ({| sys_argv := argv; sys_ps1 := sys_ps1 w; sys_ps2 := sys_ps2 w;
          builtins_dict := b; rl_loaded := rl_loaded w;
          rl_history := rl_history w; rl_history_length := rl_history_length w;
          files := files w;
          trace := trace w ++ [EvHandleInteraction; EvLoadFile python_file argv b] |},
       load_file env python_file argv b)
  | Raise e =>
      ({| sys_argv := argv; sys_ps1 := sys_ps1 w; sys_ps2 := sys_ps2 w;
          builtins_dict := builtins_dict w; rl_loaded := rl_loaded w;
          rl_history := rl_history w; rl_history_length := rl_history_length w;
          files := files w; trace := trace w ++ [EvHandleInteraction] |},
       Raise e)
  end.
Proof.
  unfold Batch_run. run.
  destruct (handle_interaction env) as [contributed|e]; cbn; [|done].
  by rewrite <- app_assoc.
Qed.

Lemma lookup_dict_update (d ns : gmap string object) name o :
  ns !! name = Some o → dict_update d ns !! name = Some o.
Proof. intros H. unfold dict_update. by rewrite lookup_dict_or, H. Qed.

(** C6. [Batch.run] leaves the script path followed by the extra
    arguments in [sys.argv], and that is the argument vector at the one
    execution of the script; when the registry raises instead of
    answering, no script is executed. *)
Theorem script_sees_rewritten_argv python_file batch_arguments w :
  let w' := (Batch_run env python_file batch_arguments w).1 in
  sys_argv w' = python_file :: batch_arguments ∧
  ∃ new, trace w' = trace w ++ new ∧
    match handle_interaction env with
    | Ok _ => ∃ b, loads new = [(python_file, python_file :: batch_arguments, b)]
    | Raise _ => loads new = []
    end.
Proof.
  rewrite Batch_run_eq. cbv zeta.
  destruct (handle_interaction env) as [contributed|e]; cbn.
  - split; [done|]. eexists. split; [reflexivity|]. by eexists.
  - split; [done|]. by eexists.
Qed.

(** C7. Every entry of the namespace [Batch.run] builds is bound in the
    builtin symbol table the script is executed with. *)
Theorem namespace_in_builtins python_file batch_arguments w contributed name o :
  handle_interaction env = Ok contributed →
  build_namespace contributed !! name = Some o →
  let w' := (Batch_run env python_file batch_arguments w).1 in
  ∃ argv b,
    trace w' = trace w ++ [EvHandleInteraction; EvLoadFile python_file argv b] ∧
    b !! name = Some o.
Proof.
  intros Hh Hns. rewrite Batch_run_eq, Hh. cbn.
  eexists _, _. split; [reflexivity|]. by apply lookup_dict_update.
Qed.

(** C8. An exception of the script leaves [Batch.run] unchanged, after a
    single load; [sys.argv] and the builtin symbol table keep what was
    written to them. *)
Theorem script_error_propagates python_file batch_arguments w contributed e :
  handle_interaction env = Ok contributed →
  load_file env python_file (python_file :: batch_arguments)
    (dict_update (builtins_dict w) (build_namespace contributed)) = Raise e →
  let w' := (Batch_run env python_file batch_arguments w).1 in
  (Batch_run env python_file batch_arguments w).2 = Raise e ∧
  (∃ new, trace w' = trace w ++ new ∧ length (loads new) = 1) ∧
  sys_argv w' = python_file :: batch_arguments ∧
  ∀ name o, build_namespace contributed !! name = Some o →
    builtins_dict w' !! name = Some o.
Proof.
  intros Hh Hload. rewrite Batch_run_eq, Hh. cbn. rewrite Hload.
  split; [done|]. split; [by eexists|]. split; [done|].
  intros name o. apply lookup_dict_update.
Qed.

End Batch.

Lemma namespace_in_builtins_witness :
  ∃ argv b,
    trace (Batch_run sample_env "job.py" ["--dry-run"] fresh_world).1
      = trace fresh_world ++ [EvHandleInteraction; EvLoadFile "job.py" argv b] ∧
    b !! "session" = Some (Instance 2 None).
Proof.
  apply (namespace_in_builtins sample_env "job.py" ["--dry-run"] fresh_world
           sample_contribution "session" (Instance 2 None));
    vm_compute; reflexivity.
Defined.

Lemma script_error_propagates_witness :
  let run := Batch_run sample_env "job.py" ["--dry-run"] fresh_world in
  run.2 = Raise (OtherError "SyntaxError") ∧
  (∃ new, trace run.1 = trace fresh_world ++ new ∧ length (loads new) = 1) ∧
  sys_argv run.1 = ["job.py"; "--dry-run"] ∧
  ∀ name o, build_namespace sample_contribution !! name = Some o →
    builtins_dict run.1 !! name = Some o.
Proof.
  apply (script_error_propagates sample_env "job.py" ["--dry-run"] fresh_world
           sample_contribution (OtherError "SyntaxError")); reflexivity.
Defined.

Example batch_trace :
  trace (Batch_run sample_env "job.py" ["--dry-run"] fresh_world).1
  = [EvHandleInteraction;
     EvLoadFile "job.py" ["job.py"; "--dry-run"]
       (dict_update {["len" := Instance 0 None]} (build_namespace sample_contribution))].
Proof. reflexivity. Qed.

(** ** The history file *)

Lemma length_most_recent (n : nat) (history : list string) :
  length (most_recent (Z.of_nat n) history) ≤ n.
Proof.
  unfold most_recent.
  destruct (Z.ltb_spec (Z.of_nat n) 0) as [Hneg|_]; [lia|].
  rewrite length_drop, Nat2Z.id. lia.
Qed.

Lemma most_recent_all (n : nat) (history : list string) :
  length history ≤ n → most_recent (Z.of_nat n) history = history.
Proof.
  intros Hlen. unfold most_recent.
  destruct (Z.ltb_spec (Z.of_nat n) 0) as [Hneg|_]; [lia|].
  rewrite Nat2Z.id. by replace (length history - n) with 0 by lia.
Qed.

Lemma most_recent_drop (n extra : nat) (history : list string) :
  length history = n + extra →
  most_recent (Z.of_nat n) history = drop extra history.
Proof.
  intros Hlen. unfold most_recent.
  destruct (Z.ltb_spec (Z.of_nat n) 0) as [Hneg|_]; [lia|].
  rewrite Nat2Z.id. f_equal. lia.
Qed.

Section History.
Variable env : collaborators.

Lemma PythonShell_call_returns self w typed :
  interact_ends env (trace w ++ [EvInteract (con_banner self) (Some "")]) (Some "")
    = (typed, Ok tt) →
  (PythonShell_call env self w).2 = Ok tt ∧
  rl_history (PythonShell_call env self w).1
    = (if rl_loaded w then rl_history w ++ typed else rl_history w).
Proof.
  intros H. rewrite PythonShell_call_eq, interact_run, H. done.
Qed.

(** A session of the built-in console with readline, in which the loop
    takes [typed] and returns: the history file holds the most recent 200
    lines of what was in the history, in the file and typed. *)
Lemma session_writes_history banner prompt ns typed w :
  importable env readline = true →
  (∀ t, interact_ends env t (Some "") = (typed, Ok tt)) →
  let w1 := (builtin_console env banner prompt ns w).1 in
  (builtin_console env banner prompt ns w).2 = Ok tt ∧
  rl_history_length w1 = 200%Z ∧
  files w1 = <[history_path env :=
               most_recent 200
                 ((rl_history w ++ default [] (files w !! history_path env)) ++ typed)]>
             (files w).
Proof.
  intros Hrl Htyped. unfold builtin_console. run. rewrite Hrl. cbn.
  match goal with
  | |- context [PythonShellWithHistory_call env ?s ?w0] =>
      set (self := s); set (wa := w0)
  end.
  rewrite PythonShellWithHistory_call_eq.
  destruct (load_history_run env wa) as (_ & _ & _ & _ & Hfiles & Hloaded & Hhist & Hlen).
  set (wb := (load_history env wa).1) in *.
  destruct (PythonShell_call_returns self wb typed (Htyped _)) as [Hok Hh].
  destruct (PythonShell_call_frame env self wb) as (Hf & Hl & _).
  destruct (PythonShell_call env self wb) as [wc r]. cbn [fst snd] in *. subst r.
  rewrite write_history_file_run. cbn.
  rewrite Hloaded in Hh. cbn in Hh.
  by rewrite Hf, Hl, Hh, Hlen, Hhist, Hfiles.
Qed.

(** C9. With readline, the history length is set to 200 and the file
    written at the end of a session is what the next session reads
    back: all the lines of the history, in order, when there are at most
    200, and the last 200 of them when there are 250. *)
Theorem history_round_trip banner prompt ns typed w :
  importable env readline = true →
  (∀ t, interact_ends env t (Some "") = (typed, Ok tt)) →
  rl_history w = [] →
  let history := default [] (files w !! history_path env) ++ typed in
  let w1 := (builtin_console env banner prompt ns w).1 in
  let reloaded := rl_history (load_history env (restart w1)).1 in
  (builtin_console env banner prompt ns w).2 = Ok tt ∧
  rl_history_length w1 = 200%Z ∧
  files w1 !! history_path env = Some reloaded ∧
  length reloaded ≤ 200 ∧
  (length history ≤ 200 → reloaded = history) ∧
  (length history = 250 → reloaded = drop 50 history).
Proof.
  intros Hrl Htyped Hempty history w1 reloaded.
  destruct (session_writes_history banner prompt ns typed w Hrl Htyped)
    as (Hok & Hlen & Hfiles).
  fold w1 in Hlen, Hfiles. rewrite Hempty in Hfiles. cbn in Hfiles. fold history in Hfiles.
  destruct (load_history_run env (restart w1)) as (_ & _ & _ & _ & _ & _ & Hre & _).
  fold reloaded in Hre. cbn in Hre.
  assert (reloaded = most_recent 200 history) as ->.
  { by rewrite Hre, Hfiles, lookup_insert_eq. }
  split; [done|]. split; [done|].
  split; [by rewrite Hfiles, lookup_insert_eq|].
  split; [apply (length_most_recent 200)|].
  split.
  - apply (most_recent_all 200).
  - intros H250. by apply (most_recent_drop 200 50).
Qed.

End History.

Lemma history_round_trip_witness :
  let typed := ["1 + 1"; "apps"; "session.flush()"] in
  let run := builtin_console (typing_env typed) "hello" "" ∅ fresh_world in
  run.2 = Ok tt ∧
  files run.1 !! "/home/user/.nagarehistory" = Some typed ∧
  rl_history (load_history (typing_env typed) (restart run.1)).1 = typed.
Proof.
  intros typed run.
  destruct (history_round_trip (typing_env typed) "hello" "" ∅ typed fresh_world)
    as (Hok & _ & Hfile & _ & Hall & _); [reflexivity | reflexivity | reflexivity |].
  split; [exact Hok|].
  rewrite (Hall ltac:(vm_compute; lia)) in Hfile.
  split; [exact Hfile|].
  apply Hall. vm_compute. lia.
Defined.

(** 250 lines typed in one session: the file keeps the last 200. *)
Example history_250 :
  let typed := pretty <$> seq 0 250 in
  files (builtin_console (typing_env typed) "hello" "" ∅ fresh_world).1
    !! "/home/user/.nagarehistory"
  = Some (pretty <$> seq 50 200).
Proof. vm_compute. reflexivity. Qed.

Example retry_still_writes_history :
  trace (builtin_console sample_env "hello" "" ∅ fresh_world).1
  = [EvImport readline;
     EvNewConsole PythonShellWithHistory "hello" "" ∅;
     EvParseAndBind "tab: complete";
     EvSetHistoryLength 200;
     EvInteract "hello" (Some "");
     EvInteract "hello" None;
     EvWriteHistoryFile "/home/user/.nagarehistory"].
Proof. vm_compute. reflexivity. Qed.

(** ** The commands on the sample collaborators *)

Example selection_with_IPython_only :
  trace (create_python_shell sample_env false "hello" "[demo]" ∅ fresh_world).1
  = [EvImport ptpython; EvImport bpython; EvImport IPython;
     EvIPythonShell "hello" "[demo]" ∅].
Proof. reflexivity. Qed.

Example selection_plain :
  trace (create_python_shell (typing_env []) true "hello" "[demo]" ∅ fresh_world).1
  = [EvImport readline;
     EvNewConsole PythonShellWithHistory "hello" "[demo]" ∅;
     EvParseAndBind "tab: complete";
     EvSetHistoryLength 200;
     EvInteract "hello" (Some "");
     EvWriteHistoryFile "/home/user/.nagarehistory"].
Proof. vm_compute. reflexivity. Qed.

Example shell_run_sample :
  trace (Shell_run sample_env "Nagare" "3.12" "linux" false fresh_world).1
  = [EvHandleInteraction;
     EvImport ptpython; EvImport bpython; EvImport IPython;
     EvIPythonShell
       ("Nagare" +:+ nl +:+ "Python 3.12 on linux" +:+ nl +:+ nl +:+
        "Variables 'app', 'services' and 'session' are available" +:+ nl)
       "[demo]"
       (<["__name__" := PyStr "__console__"]> (build_namespace sample_contribution))].
Proof. vm_compute. reflexivity. Qed.

Example exit_skips_history_write :
  let run := builtin_console (failing_env SystemExit) "hello" "" ∅ fresh_world in
  run.2 = Raise SystemExit ∧ files run.1 = ∅.
Proof. split; vm_compute; reflexivity. Qed.

(** ** Further properties of the namespace and the banner *)

(** X17. The names of the namespace are the contributed names and
    'services', and nothing else; a contributed 'services' does not add a
    name. *)
Theorem namespace_names (contributed : gmap string object) :
  dom (build_namespace contributed) = {["services"]} ∪ dom contributed ∧
  size (build_namespace contributed)
    = match contributed !! "services" with
      | Some _ => size contributed
      | None => S (size contributed)
      end.
Proof.
  split.
  - unfold build_namespace, dict_or. by rewrite dom_union_L, dom_singleton_L.
  - unfold build_namespace, dict_or. rewrite <- insert_union_singleton_l.
    rewrite map_size_insert. by destruct (contributed !! "services").
Qed.

Lemma make_banner_returns (B V P : string) (contributed : gmap string object) :
  ∃ banner, make_banner B V P (build_namespace contributed) = Ok banner.
Proof.
  set (ns := build_namespace contributed).
  pose proof (size_build_namespace contributed) as Hsize. fold ns in Hsize.
  unfold make_banner.
  destruct (decide (size ns = 1)) as [Hone|Hmany].
  - rewrite (available_single ns "services" Hone); [by eexists|].
    unfold ns. rewrite lookup_build_namespace. by eexists.
  - destruct (variables_snoc ns) as (names & final & Hsorted); [lia|].
    rewrite (available_several ns names final Hmany Hsorted). by eexists.
Qed.

(** X18. The banner is in the singular exactly when no handler
    contributes a name other than 'services'; the variable it names is
    then 'services'. *)
Theorem singular_banner_iff (contributed : gmap string object) :
  available (build_namespace contributed) = Ok "Variable 'services' is available"
  ↔ ∀ name, is_Some (contributed !! name) → name = "services".
Proof.
  set (ns := build_namespace contributed).
  assert (is_Some (ns !! "services")) as Hs.
  { unfold ns. rewrite lookup_build_namespace. by eexists. }
  split.
  - intros Hav name Hname.
    destruct (decide (name = "services")) as [|Hne]; [done|]. exfalso.
    assert (size ns ≠ 1) as Hmany.
    { intros Hone.
      assert (is_Some (ns !! name)) as Hn.
      { unfold ns. rewrite lookup_build_namespace. by rewrite decide_False. }
      pose proof (keys_single ns name Hone Hn) as H1.
      pose proof (keys_single ns "services" Hone Hs) as H2. congruence. }
    destruct (variables_snoc ns) as (names & final & Hsorted).
    { intros H0. by apply (map_size_ne_0_lookup_2 ns "services"). }
    rewrite (available_several ns names final Hmany Hsorted) in Hav.
    discriminate Hav.
  - intros Honly.
    assert (ns = {["services" := Services]}) as Hns.
    { apply map_eq. intros k. unfold ns. rewrite lookup_build_namespace.
      case_decide as Hk.
      - subst k. by rewrite lookup_singleton_eq.
      - rewrite lookup_singleton_ne by done.
        destruct (contributed !! k) as [o|] eqn:Hc; [|done].
        destruct Hk. apply Honly. by eexists. }
    rewrite (available_single ns "services"); [done| |done].
    rewrite Hns. apply map_size_singleton.
Qed.

Lemma singular_banner_iff_witness :
  available (build_namespace ∅) = Ok "Variable 'services' is available".
Proof.
  apply singular_banner_iff. intros name [o Ho]. by rewrite lookup_empty in Ho.
Defined.

(** X19. With exactly two names the banner joins them with " and " and
    has no comma: the smaller name comes first. *)
Theorem banner_of_two_names (ns : gmap string object) :
  size ns = 2 →
  ∃ a b, str_le a b ∧ a ≠ b ∧ is_Some (ns !! a) ∧ is_Some (ns !! b) ∧
    available ns
      = Ok ("Variables " +:+ quoted a +:+ " and " +:+ quoted b +:+ " are available").
Proof.
  intros Hsize.
  destruct (variables_snoc ns) as (names & b & Hsorted); [lia|].
  pose proof (length_sorted (keys ns)) as Hlen.
  rewrite Hsorted, length_keys, length_app, Hsize in Hlen. cbn in Hlen.
  destruct names as [|a [|a' names]]; simplify_eq/=; try lia.
  pose proof (sorted_Sorted (keys ns)) as Hs. rewrite Hsorted in Hs.
  pose proof (sorted_Permutation (keys ns)) as Hp. rewrite Hsorted in Hp.
  exists a, b. split; [|split; [|split; [|split]]].
  - inversion Hs as [|x l _ Hhd]; subst. by inversion Hhd.
  - intros ->. pose proof (NoDup_fst_map_to_list ns) as Hnd.
    fold (keys ns) in Hnd. rewrite <- Hp in Hnd.
    apply NoDup_cons in Hnd as [Hnotin _]. apply Hnotin. by left.
  - apply elem_of_keys. rewrite <- Hp. by left.
  - apply elem_of_keys. rewrite <- Hp. right. by left.
  - by rewrite (available_several ns [a] b) by (done || lia).
Qed.

Lemma banner_of_two_names_witness :
  ∃ a b, str_le a b ∧ a ≠ b ∧
    is_Some (build_namespace {["app" := Instance 1 None]} !! a) ∧
    is_Some (build_namespace {["app" := Instance 1 None]} !! b) ∧
    available (build_namespace {["app" := Instance 1 None]})
      = Ok ("Variables " +:+ quoted a +:+ " and " +:+ quoted b +:+ " are available").
Proof.
  apply (banner_of_two_names (build_namespace {["app" := Instance 1 None]})).
  vm_compute. reflexivity.
Defined.

(** ** The [in] test of line 83 *)

Lemma prefix_app (p s : string) :
  String.prefix p s = true ↔ ∃ post, s = p +:+ post.
Proof.
  revert s. induction p as [|c p IH]; intros s.
  - split; [intros _; by exists s | by destruct s].
  - destruct s as [|c' s]; cbn.
    + split; [done | by intros [post ?]].
    + destruct (Ascii.ascii_dec c c') as [->|Hne].
      * rewrite IH. split; intros [post Hpost]; exists post.
        -- by rewrite Hpost.
        -- by injection Hpost.
      * split; [done|]. intros [post Hpost]. injection Hpost as ? ?. done.
Qed.

(** X5. [str_contains], the model of [needle in hay] on strings, holds
    exactly when [needle] occurs somewhere in [hay]. *)
Theorem str_contains_occurs (needle hay : string) :
  str_contains needle hay = true ↔ occurs_in needle hay.
Proof.
  unfold occurs_in. induction hay as [|c hay IH].
  - cbn [str_contains]. rewrite orb_false_r, prefix_app. split.
    + intros [post Hpost]. by exists "", post.
    + intros ([|c pre] & post & Hpre); [by exists post | done].
  - cbn [str_contains]. rewrite orb_true_iff, prefix_app, IH. split.
    + intros [[post Hpost] | (pre & post & Hpost)].
      * by exists "", post.
      * exists (String c pre), post. cbn. by rewrite Hpost.
    + intros ([|c' pre] & post & Hpost).
      * left. by exists post.
      * right. injection Hpost as -> Hpost. by exists pre, post.
Qed.

Lemma str_contains_occurs_witness :
  occurs_in "exitmsg" "interact() got an unexpected keyword argument 'exitmsg'".
Proof. apply str_contains_occurs. reflexivity. Defined.

(** ** More on the consoles *)

Section MoreConsoles.
Variable env : collaborators.

(** X4. [PythonShell.__call__] enters the loop once, with an empty exit
    message, and at most once more, without it: a second failure, of any
    kind, is not retried. *)
Theorem loop_entered_once_or_twice self w :
  let b := con_banner self in
  trace (PythonShell_call env self w).1 = trace w ++ [EvInteract b (Some "")] ∨
  (trace (PythonShell_call env self w).1
     = trace w ++ [EvInteract b (Some ""); EvInteract b None] ∧
   (PythonShell_call env self w).2
     = (interact_ends env (trace w ++ [EvInteract b (Some ""); EvInteract b None]) None).2).
Proof.
  intros b. rewrite PythonShell_call_eq, interact_run.
  destruct (interact_ends env _ (Some "")) as [lines [a|e]]; [by left|].
  cbv beta iota zeta. cbn [fst snd].
  destruct e as [|[|a rest]| | | | | |]; try by left.
  destruct (str_contains "exitmsg" a); [|by left].
  right. rewrite interact_run. cbn. by rewrite <- app_assoc.
Qed.

(** X6. Before the loop, the history file is read only if it exists: a
    missing file is no error and leaves the history as it is. In both
    cases the history length is set to 200 and no file is touched. *)
Theorem history_file_read_if_present w :
  let w0 := (load_history env w).1 in
  (load_history env w).2 = Ok tt ∧
  rl_history_length w0 = 200%Z ∧
  files w0 = files w ∧
  match files w !! history_path env with
  | Some lines =>
      rl_history w0 = rl_history w ++ lines ∧
      trace w0 = trace w ++ [EvParseAndBind "tab: complete";
                             EvReadHistoryFile (history_path env);
                             EvSetHistoryLength 200]
  | None =>
      rl_history w0 = rl_history w ∧
      trace w0 = trace w ++ [EvParseAndBind "tab: complete"; EvSetHistoryLength 200]
  end.
Proof.
  unfold load_history. run.
  destruct (files w !! history_path env) as [lines|] eqn:Hf; cbn; rewrite ?Hf; cbn;
    by rewrite <- !app_assoc.
Qed.


Lemma PythonShell_call_files self w :
  files (PythonShell_call env self w).1 = files w.
Proof. by destruct (PythonShell_call_frame env self w) as (? & _). Qed.

(** X7. Without readline the built-in console is the plain one: the
    loop is entered as by [PythonShell.__call__], no history file is
    read or written, and the call ends as the loop ends. *)
Theorem no_readline_no_history banner prompt ns w :
  importable env readline = false →
  let self := {| con_class := PythonShell; con_banner := banner;
                 con_prompt := prompt; con_ns := ns |} in
  let w' := (builtin_console env banner prompt ns w).1 in
  files w' = files w ∧
  ∃ w0, trace w0 = trace w ++ [EvImport readline; EvNewConsole PythonShell banner prompt ns] ∧
        builtin_console env banner prompt ns w = PythonShell_call env self w0.
Proof.
  intros Hrl self w'. unfold w', builtin_console. run. rewrite Hrl. cbn.
  match goal with
  | |- context [PythonShell_call env ?s ?w0] =>
      pose proof (PythonShell_call_files s w0) as Hf; set (wa := w0) in *
  end.
  split; [exact Hf|]. exists wa. split; [|done].
  unfold wa. cbn. by rewrite <- app_assoc.
Qed.


End MoreConsoles.

(** ** More on the shell factory *)

Section MoreFactory.
Variable env : collaborators.

(** X9. When an optional engine is selected, [create_python_shell] ends
    as that engine's console ends: an exception it raises, [ImportError]
    included, is not caught and no other console is tried. *)
Theorem engine_outcome_is_the_outcome banner prompt ns w engine :
  first_importable env = Some engine →
  (create_python_shell env false banner prompt ns w).2 = embed_ends env engine.
Proof.
  unfold first_importable, engines. cbn [List.find].
  unfold create_python_shell. cbn [negb]. run.
  destruct (importable env ptpython); cbn; [by intros [= <-]|].
  destruct (importable env bpython); cbn; [by intros [= <-]|].
  destruct (importable env IPython); cbn; [by intros [= <-]|].
  done.
Qed.

End MoreFactory.

Lemma engine_outcome_is_the_outcome_witness :
  (create_python_shell crashing_env false "hello" "" ∅ fresh_world).2 = Raise ImportError ∧
  consoles_run (trace (create_python_shell crashing_env false "hello" "" ∅ fresh_world).1)
    = [Optional bpython].
Proof.
  split; [|reflexivity].
  apply (engine_outcome_is_the_outcome crashing_env "hello" "" ∅ fresh_world bpython).
  reflexivity.
Defined.

(** ** More on the commands *)

Section MoreCommands.
Variable env : collaborators.
Variables (B V P : string).

Lemma bound_name_not_services name : name ∈ bound_names → name ≠ "services".
Proof.
  unfold bound_names. rewrite !elem_of_cons, elem_of_nil.
  intros [->|[->|[->|[->|[]]]]]; discriminate.
Qed.

Lemma collision_iff (contributed : gmap string object) :
  Exists (λ k, is_Some (build_namespace contributed !! k)) bound_names
  ↔ ∃ name, name ∈ bound_names ∧ is_Some (contributed !! name).
Proof.
  rewrite Exists_exists. split; intros (name & Hin & Hsome); exists name;
    (split; [done|]);
    by rewrite lookup_build_namespace, decide_False in *
      by (by apply bound_name_not_services).
Qed.

(** X12. [Shell.run] hands the console the banner of the namespace, the
    application's name in brackets as prompt tag (nothing when there is
    no 'app' or it is [None]) and the namespace with '__name__' bound to
    '__console__', provided no contributed name is one of 'plain',
    'banner', 'prompt' and '__name__'. *)
Theorem Shell_run_starts_console plain w contributed tag :
  handle_interaction env = Ok contributed →
  (∀ name, name ∈ bound_names → contributed !! name = None) →
  (contributed !! "app" = None ∧ tag = "") ∨
  (contributed !! "app" = Some PyNone ∧ tag = "") ∨
  (∃ id name, contributed !! "app" = Some (Instance id (Some name)) ∧
              tag = "[" +:+ name +:+ "]") →
  let ns := build_namespace contributed in
  ∃ banner,
    make_banner B V P ns = Ok banner ∧
    Shell_run env B V P plain w
    = create_python_shell env plain banner tag
        (<["__name__" := PyStr "__console__"]> ns)
        (emit EvHandleInteraction w).1.
Proof.
  intros Hh Hfree Happ ns.
  destruct (make_banner_returns B V P contributed) as [banner Hb]. fold ns in Hb.
  exists banner. split; [done|].
  unfold Shell_run. unfold bind at 1 2 3. cbn [emit lift fst snd].
  rewrite Hh. cbv beta iota zeta. fold ns. rewrite Hb. cbv beta iota.
  assert (ns !! "app" = contributed !! "app") as Hlook.
  { unfold ns. by rewrite lookup_build_namespace. }
  assert (bool_decide (Exists (λ k, is_Some (ns !! k)) bound_names) = false) as Hno.
  { apply bool_decide_eq_false. unfold ns. rewrite collision_iff.
    intros (name & Hin & Hsome). rewrite (Hfree name Hin) in Hsome.
    by destruct Hsome. }
  rewrite Hlook.
  destruct Happ as [[-> ->] | [[-> ->] | (id & name & -> & ->)]];
    unfold bind, ret, name_of; cbn; by rewrite Hno.
Qed.

(** X13. A contributed variable named 'plain', 'banner', 'prompt' or
    '__name__' makes [Shell.run] fail, with the [TypeError] of the call
    or the [AttributeError] of a nameless 'app' before it, and nothing is
    imported and no console is started. *)
Theorem contributed_argument_name_fails plain w contributed name :
  handle_interaction env = Ok contributed →
  name ∈ bound_names →
  is_Some (contributed !! name) →
  trace (Shell_run env B V P plain w).1 = trace w ++ [EvHandleInteraction] ∧
  ((Shell_run env B V P plain w).2 = Raise AttributeError ∨
   ∃ args, (Shell_run env B V P plain w).2 = Raise (TypeError args)).
Proof.
  intros Hh Hin Hsome.
  destruct (make_banner_returns B V P contributed) as [banner Hb].
  destruct (Shell_run env B V P plain w) as [w' r] eqn:Hrun.
  unfold Shell_run in Hrun. unfold bind at 1 2 3 in Hrun.
  cbn [emit lift fst snd] in Hrun.
  rewrite Hh in Hrun. cbv beta iota zeta in Hrun. rewrite Hb in Hrun.
  cbv beta iota in Hrun.
  rewrite bool_decide_true in Hrun by (apply collision_iff; eauto).
  destruct (build_namespace contributed !! "app") as [[| | |id [n|]]|];
    unfold bind, ret, raise, name_of in Hrun; cbn in Hrun;
    injection Hrun as <- <-; cbn; eauto.
Qed.

(** X14. An 'app' that is not [None] and has no [name] attribute makes
    [Shell.run] end with [AttributeError] before any console is
    started. *)
Theorem nameless_app_fails plain w contributed app :
  handle_interaction env = Ok contributed →
  contributed !! "app" = Some app →
  app ≠ PyNone → (∀ id name, app ≠ Instance id (Some name)) →
  Shell_run env B V P plain w
  = ((emit EvHandleInteraction w).1, Raise AttributeError).
Proof.
  intros Hh Happ Hnone Hname.
  destruct (make_banner_returns B V P contributed) as [banner Hb].
  unfold Shell_run. unfold bind at 1 2 3. cbn [emit lift fst snd].
  rewrite Hh. cbv beta iota zeta. rewrite Hb. cbv beta iota.
  rewrite lookup_build_namespace, decide_False, Happ by done.
  destruct app as [| | |id [n|]]; try done.
  by destruct (Hname id n).
Qed.

(** X15. When the registry raises, [Batch.run] ends with its exception:
    [sys.argv] is rewritten all the same, the builtin symbol table is
    not touched and no script is loaded. *)
Theorem registry_failure_in_batch python_file batch_arguments w e :
  handle_interaction env = Raise e →
  let w' := (Batch_run env python_file batch_arguments w).1 in
  (Batch_run env python_file batch_arguments w).2 = Raise e ∧
  sys_argv w' = python_file :: batch_arguments ∧
  builtins_dict w' = builtins_dict w ∧
  trace w' = trace w ++ [EvHandleInteraction].
Proof. intros Hh. by rewrite Batch_run_eq, Hh. Qed.

(** X16. After [Batch.run] a builtin name is bound to the namespace's
    object when the namespace has that name, so a contributed name hides
    the builtin of the same name, and to what it was bound to
    otherwise. *)
Theorem builtins_after_batch python_file batch_arguments w contributed name :
  handle_interaction env = Ok contributed →
  builtins_dict (Batch_run env python_file batch_arguments w).1 !! name
  = match build_namespace contributed !! name with
    | Some o => Some o
    | None => builtins_dict w !! name
    end.
Proof.
  intros Hh. rewrite Batch_run_eq, Hh. cbn.
  unfold dict_update. apply lookup_dict_or.
Qed.

End MoreCommands.

Lemma no_readline_no_history_witness :
  let run := builtin_console (contributing_env (Ok ∅)) "hello" "" ∅ fresh_world in
  files run.1 = ∅ ∧ run.2 = Ok tt.
Proof.
  destruct (no_readline_no_history (contributing_env (Ok ∅)) "hello" "" ∅ fresh_world)
    as (Hfiles & w0 & _ & Hrun); [reflexivity|].
  split; [exact Hfiles | reflexivity].
Defined.


Lemma Shell_run_starts_console_witness :
  ∃ banner,
    make_banner "Nagare" "3.12" "linux" (build_namespace sample_contribution) = Ok banner ∧
    Shell_run sample_env "Nagare" "3.12" "linux" false fresh_world
    = create_python_shell sample_env false banner "[demo]"
        (<["__name__" := PyStr "__console__"]> (build_namespace sample_contribution))
        (emit EvHandleInteraction fresh_world).1.
Proof.
  apply (Shell_run_starts_console sample_env "Nagare" "3.12" "linux" false fresh_world
           sample_contribution "[demo]").
  - reflexivity.
  - intros name Hin. unfold bound_names in Hin.
    rewrite !elem_of_cons, elem_of_nil in Hin.
    destruct Hin as [->|[->|[->|[->|[]]]]]; vm_compute; reflexivity.
  - right. right. exists 1, "demo". split; vm_compute; reflexivity.
Defined.

Lemma contributed_argument_name_fails_witness :
  let env := contributing_env (Ok {["banner" := PyStr "welcome"]}) in
  trace (Shell_run env "Nagare" "3.12" "linux" false fresh_world).1
    = trace fresh_world ++ [EvHandleInteraction] ∧
  ((Shell_run env "Nagare" "3.12" "linux" false fresh_world).2 = Raise AttributeError ∨
   ∃ args, (Shell_run env "Nagare" "3.12" "linux" false fresh_world).2
           = Raise (TypeError args)).
Proof.
  apply (contributed_argument_name_fails
           (contributing_env (Ok {["banner" := PyStr "welcome"]}))
           "Nagare" "3.12" "linux" false fresh_world
           {["banner" := PyStr "welcome"]} "banner").
  - reflexivity.
  - unfold bound_names. rewrite !elem_of_cons. auto.
  - vm_compute. by eexists.
Defined.

Lemma nameless_app_fails_witness :
  let env := contributing_env (Ok {["app" := Instance 3 None]}) in
  Shell_run env "Nagare" "3.12" "linux" false fresh_world
  = ((emit EvHandleInteraction fresh_world).1, Raise AttributeError).
Proof.
  apply (nameless_app_fails (contributing_env (Ok {["app" := Instance 3 None]}))
           "Nagare" "3.12" "linux" false fresh_world
           {["app" := Instance 3 None]} (Instance 3 None));
    [reflexivity | vm_compute; reflexivity | discriminate | discriminate].
Defined.

Lemma registry_failure_in_batch_witness :
  let run := Batch_run crashing_env "job.py" ["--dry-run"] fresh_world in
  run.2 = Raise (OtherError "RuntimeError") ∧
  sys_argv run.1 = ["job.py"; "--dry-run"] ∧
  builtins_dict run.1 = builtins_dict fresh_world ∧
  trace run.1 = trace fresh_world ++ [EvHandleInteraction].
Proof.
  apply (registry_failure_in_batch crashing_env "job.py" ["--dry-run"] fresh_world
           (OtherError "RuntimeError")). reflexivity.
Defined.

Lemma builtins_after_batch_witness :
  builtins_dict (Batch_run sample_env "job.py" [] fresh_world).1 !! "len"
    = Some (Instance 0 None) ∧
  builtins_dict (Batch_run sample_env "job.py" [] fresh_world).1 !! "app"
    = Some (Instance 1 (Some "demo")).
Proof.
  split.
  - rewrite (builtins_after_batch sample_env "job.py" [] fresh_world
               sample_contribution "len"); [|reflexivity].
    vm_compute. reflexivity.
  - rewrite (builtins_after_batch sample_env "job.py" [] fresh_world
               sample_contribution "app"); [|reflexivity].
    vm_compute. reflexivity.
Defined.

(** X20. The selected engine is given the banner, the namespace and the
    prompt tag: ptpython has the banner printed first and gets the
    history file of the built-in console and the prompts "Nagare", tag,
    ">>> " and "... "; bpython and IPython get the banner themselves. *)
Theorem engine_gets_banner_and_prompt (env : collaborators) banner prompt ns w engine :
  first_importable env = Some engine →
  trace (create_python_shell env false banner prompt ns w).1
  = trace w ++ (EvImport <$> probed env engines) ++ launch env engine banner prompt ns.
Proof.
  unfold first_importable, engines. cbn [List.find probed].
  unfold create_python_shell. cbn [negb]. run.
  destruct (importable env ptpython); cbn;
    [intros [= <-]; cbn; by rewrite <- !app_assoc|].
  destruct (importable env bpython); cbn;
    [intros [= <-]; cbn; by rewrite <- !app_assoc|].
  destruct (importable env IPython); cbn;
    [intros [= <-]; cbn; by rewrite <- !app_assoc|].
  done.
Qed.

Lemma engine_gets_banner_and_prompt_witness :
  trace (create_python_shell sample_env false "hello" "[demo]" ∅ fresh_world).1
  = [EvImport ptpython; EvImport bpython; EvImport IPython;
     EvIPythonShell "hello" "[demo]" ∅].
Proof.
  apply (engine_gets_banner_and_prompt sample_env "hello" "[demo]" ∅ fresh_world IPython).
  reflexivity.
Defined.

(** ** Two consoles for one call *)

(** C1 at a history console whose loop ends with [ImportError], with
    [plain] true and with [plain] false and no optional engine: the
    [except ImportError] of line 171 takes the exception of the running
    console for a missing readline, so that after the history console
    was created and its loop entered, a plain console is created and
    its loop entered too; the call returns and the history file is not
    written. The optional engines are started in an [else] suite, out of
    reach of their [except]. *)
Theorem fallback_runs_two_consoles :
  let session :=
    [EvImport readline;
     EvNewConsole PythonShellWithHistory "hello" "" ∅;
     EvParseAndBind "tab: complete";
     EvSetHistoryLength 200;
     EvInteract "hello" (Some "");
     EvNewConsole PythonShell "hello" "" ∅;
     EvInteract "hello" (Some "")] in
  let plain := create_python_shell restarting_env true "hello" "" ∅ fresh_world in
  let probing := create_python_shell restarting_env false "hello" "" ∅ fresh_world in
  plain = builtin_console restarting_env "hello" "" ∅ fresh_world ∧
  trace plain.1 = session ∧
  consoles_run (trace plain.1) = [Builtin PythonShellWithHistory; Builtin PythonShell] ∧
  plain.2 = Ok tt ∧
  files plain.1 = ∅ ∧
  first_importable restarting_env = None ∧
  trace probing.1 = [EvImport ptpython; EvImport bpython; EvImport IPython] ++ session ∧
  probing.2 = Ok tt.
Proof. repeat split; vm_compute; reflexivity. Qed.

Example history_path_strips_slashes :
  history_path restarting_env = "/home/user/.nagarehistory" ∧
  history_path sample_env = "/home/user/.nagarehistory".
Proof. split; reflexivity. Qed.
